(** * dmenv demo package: the packaging script [demo/setup.py]

    The script imports [sys] and, from [setuptools], the names [setup] and
    [find_packages]; it then guards on the interpreter's major version and
    makes a single call to [setup] with literal keyword arguments.  It is
    embedded as a computation in a small log-and-exception monad: the log
    records the [sys.exit] and the [setup] that the script executes, the
    exception is whatever Python raises.  The import and the attribute
    read [sys.version_info.major] are steps that can raise.  Keyword
    arguments are a record, Python dicts are [gmap]s, Python lists are
    lists, Python [str] is [string]. *)

From Stdlib Require Import ZArith NArith Ascii.
From stdpp Require Import gmap strings list fin_maps.

Local Open Scope Z_scope.

(** ** Python values and exceptions *)

Module Py.

(** The five items of [sys.version_info]. *)
Record version_info := {
  major : Z;
  minor : Z;
  micro : Z;
  releaselevel : string;
  serial : Z
}.

(** The argument of [sys.exit]. *)
Inductive exit_arg :=
| ExitNone
| ExitInt (n : Z)
| ExitStr (s : string).

(** [SystemExit], or any other exception with the name of its type and
    its message. *)
Inductive exn :=
| SystemExit (arg : exit_arg)
| Exception (type_name message : string).

Inductive outcome (A : Type) :=
| Returned (a : A)
| Raised (e : exn).

Arguments Returned {A} a.
Arguments Raised {A} e.

(** [sys.version_info] is a tuple with named fields from Python 2.7 and
    from Python 3.1 on.  In Python 2.0 to 2.6 and in 3.0 it is a plain
    tuple, and before 2.0 the module [sys] has no [version_info]. *)
Definition has_named_fields (v : version_info) : bool :=
  if major v <? 2 then false
  else if major v =? 2 then 7 <=? minor v
  else if major v =? 3 then 1 <=? minor v
  else true.

(** The expression [sys.version_info.major]: the attribute read raises
    [AttributeError] where there are no named fields. *)
Definition version_info_major (v : version_info) : outcome Z :=
  if has_named_fields v then Returned (major v)
  else if major v <? 2 then Raised (Exception "AttributeError" "version_info")
  else
    Raised
      (Exception "AttributeError" "'tuple' object has no attribute 'major'").

End Py.

Import Py.

(** ** Keyword arguments of [setuptools.setup] *)

Record setup_kwargs := {
  name : string;
  version : string;
  description : string;
  py_modules : list string;
  include_package_data : bool;
  install_requires : list string;
  extras_require : gmap string (list string);
  classifiers : list string;
  entry_points : gmap string (list string)
}.

(** ** The interpreter the script runs under

    What the script can observe of its environment.  [import_setuptools]
    is what the statement [from setuptools import setup, find_packages]
    does on this interpreter: it raises ([ImportError] when setuptools or
    one of the two names is missing, or whatever the package raises while
    it loads), or it binds [setup] to the function of the installed
    packaging tool.  That function reads the command line and the
    environment besides its keyword arguments; what it does with them is
    left open, it may return or raise.  [import sys] cannot fail, [sys] is
    built in. *)
Record interpreter := {
  sys_version_info : version_info;
  sys_argv : list string;
  os_environ : gmap string string;
  import_setuptools :
    outcome (list string → gmap string string → setup_kwargs → outcome unit)
}.

(** What the script executes, in order. *)
Inductive event :=
| SysExit (arg : exit_arg)
| Setup (kw : setup_kwargs).

(** ** Script computations

    A computation takes the events so far and gives the extended log
    together with a value or a raised exception. *)

Module Script.

Definition t (A : Type) : Type := list event → list event * outcome A.

Definition ret {A} (a : A) : t A := λ log, (log, Returned a).

Definition bind {A B} (c : t A) (k : A → t B) : t B :=
  λ log,
    match c log with
    | (log', Returned a) => k a log'
    | (log', Raised e) => (log', Raised e)
    end.

(** A step that logs nothing: an import, an attribute read. *)
Definition lift {A} (o : outcome A) : t A := λ log, (log, o).

(** [if b: body] with no [else]. *)
Definition when (b : bool) (body : t unit) : t unit :=
  if b then body else ret tt.

End Script.

Notation "x <- c1 ;; c2" := (Script.bind c1 (λ x, c2))
  (at level 100, c1 at next level, c2 at level 200, right associativity).

Notation "c1 ;; c2" := (Script.bind c1 (λ _, c2))
  (at level 100, c2 at level 200, right associativity).

(** [sys.exit(arg)] raises [SystemExit(arg)]. *)
Definition sys_exit (arg : exit_arg) : Script.t unit :=
  λ log, (log ++ [SysExit arg], Raised (SystemExit arg)).

(** A call of [setup], the function bound by the import, with keyword
    arguments [kw]: the packaging tool receives them and reads the command
    line and the environment; the distribution object it returns is
    discarded by the script, an exception it raises propagates. *)
Definition setup (py : interpreter)
    (setup_function :
       list string → gmap string string → setup_kwargs → outcome unit)
    (kw : setup_kwargs) : Script.t unit :=
  λ log,
    (log ++ [Setup kw], setup_function (sys_argv py) (os_environ py) kw).

(** ** [setup.py] *)

Definition setup_py (py : interpreter) : Script.t unit :=
  setup_function <- Script.lift (import_setuptools py) ;;
  version_major <- Script.lift (version_info_major (sys_version_info py)) ;;
  Script.when (version_major <? 3)
    (sys_exit (ExitStr "Error: Please upgrade to Python3")) ;;
  setup py setup_function {|
    name := "demo";
    version := "0.6.1";
    description := "dmenv demo";
    py_modules := ["demo"];
    include_package_data := true;
    install_requires := [
      "path.py"
    ];
    extras_require := {[
      "dev" := [
        "pytest"
      ]
    ]};
    classifiers := [
      "Programming Language :: Python :: 3.3";
      "Programming Language :: Python :: 3.4";
      "Programming Language :: Python :: 3.5";
      "Programming Language :: Python :: 3.6"
    ];
    entry_points := {["console_scripts" := ["demo = demo:main"]]}
  |}.

(** ** Running the script as the main program

    An uncaught [SystemExit] ends the process: [None] gives status 0, an
    integer gives its low eight bits as the status, any other object is
    printed on standard error and the status is 1.  Any other uncaught
    exception prints a traceback and gives status 1.  Falling off the end
    of the script gives status 0.  [stderr] holds what the interpreter
    prints for the uncaught exception; of a traceback only the last line,
    which names the exception, is kept. *)

Record process := {
  stderr : list string;
  exit_status : Z;
  events : list event;
  result : outcome unit
}.

Definition run_main (py : interpreter) : process :=
  let '(log, r) := setup_py py [] in
  match r with
  | Returned _ =>
      {| stderr := []; exit_status := 0; events := log; result := r |}
  | Raised (SystemExit ExitNone) =>
      {| stderr := []; exit_status := 0; events := log; result := r |}
  | Raised (SystemExit (ExitInt n)) =>
      {| stderr := []; exit_status := n mod 256; events := log; result := r |}
  | Raised (SystemExit (ExitStr s)) =>
      {| stderr := [s]; exit_status := 1; events := log; result := r |}
  | Raised (Exception type_name message) =>
      {| stderr := [type_name +:+ ": " +:+ message]; exit_status := 1;
         events := log; result := r |}
  end.

(** The keyword arguments of the calls to [setup], in order. *)
Definition setup_calls (p : process) : list setup_kwargs :=
  omap (λ ev, match ev with Setup kw => Some kw | SysExit _ => None end)
    (events p).

(** The script itself executed [sys.exit]. *)
Definition exited_early (p : process) : bool :=
  existsb (λ ev, match ev with SysExit _ => true | Setup _ => false end)
    (events p).

(** The run gets to compare the major version with 3: the import of
    [setuptools] returns and [sys.version_info] has the attribute
    [major]. *)
Definition guard_evaluates (py : interpreter) : bool :=
  match import_setuptools py with
  | Returned _ => has_named_fields (sys_version_info py)
  | Raised _ => false
  end.

(** ** How the packaging tool reads the metadata

    [setup.py] only hands the keyword arguments over.  What a command name,
    a target callable, a compatibility classifier or an installed
    requirement is, is decided by the packaging tool (setuptools and the
    installer), which is not part of the repository.  The readers below
    follow the tool's documented formats: an entry point is written
    [name = module:attr], a language classifier
    [Programming Language :: Python :: X.Y], and the requirements of an
    installation are the runtime ones plus those of each requested extra. *)

Module Str.

(** Cut [s] at the first occurrence of the character [c]. *)
Fixpoint split_once (c : ascii) (s : string) : option (string * string) :=
  match s with
  | EmptyString => None
  | String a s' =>
      if Ascii.eqb a c then Some (EmptyString, s')
      else
        match split_once c s' with
        | Some (l, r) => Some (String a l, r)
        | None => None
        end
  end.

Fixpoint lstrip (s : string) : string :=
  match s with
  | String a s' => if Ascii.is_space a then lstrip s' else s
  | EmptyString => EmptyString
  end.

Definition rstrip (s : string) : string :=
  String.rev (lstrip (String.rev s)).

Definition strip (s : string) : string := rstrip (lstrip s).

(** [Some rest] when [s] is [p] followed by [rest]. *)
Fixpoint strip_prefix (p s : string) : option string :=
  match p, s with
  | EmptyString, _ => Some s
  | String a p', String b s' =>
      if Ascii.eqb a b then strip_prefix p' s' else None
  | String _ _, EmptyString => None
  end.

(** Whether [sub] occurs in [s]. *)
Fixpoint contains (sub s : string) : bool :=
  match strip_prefix sub s with
  | Some _ => true
  | None =>
      match s with
      | EmptyString => false
      | String _ s' => contains sub s'
      end
  end.

(** The decimal number that [s] starts with, and what follows it. *)
Fixpoint take_number_go (acc : option N) (s : string) : option N * string :=
  match s with
  | String a s' =>
      match Ascii.is_nat a with
      | Some d =>
          take_number_go (Some (10 * default 0%N acc + N.of_nat d)%N) s'
      | None => (acc, s)
      end
  | EmptyString => (acc, s)
  end.

Definition take_number (s : string) : option (N * string) :=
  match take_number_go None s with
  | (Some n, rest) => Some (n, rest)
  | (None, _) => None
  end.

End Str.

(** An entry point [name = module:attr]. *)
Record entry_point := {
  ep_name : string;
  ep_module : string;
  ep_attr : string
}.

Definition parse_entry_point (spec : string) : option entry_point :=
  match Str.split_once "=" spec with
  | Some (n, target) =>
      match Str.split_once ":" target with
      | Some (m, a) =>
          Some {| ep_name := Str.strip n;
                  ep_module := Str.strip m;
                  ep_attr := Str.strip a |}
      | None => None
      end
  | None => None
  end.

(** The entry-point specifications registered in the group
    [console_scripts]; a missing group registers none. *)
Definition console_scripts (kw : setup_kwargs) : list string :=
  default [] (entry_points kw !! "console_scripts").

(** The Python version [(X, Some Y)] or [(X, None)] that a classifier
    [Programming Language :: Python :: X.Y] or [... :: X] declares;
    [None] for any other classifier. *)
Definition classifier_python_version (c : string) : option (N * option N) :=
  match Str.strip_prefix "Programming Language :: Python :: " c with
  | Some v =>
      match Str.take_number v with
      | Some (x, String "." rest) =>
          match Str.take_number rest with
          | Some (y, EmptyString) => Some (x, Some y)
          | _ => None
          end
      | Some (x, _) => Some (x, None)
      | None => None
      end
  | None => None
  end.

(** The classifier names minor version [Y] of Python [x]. *)
Definition names_minor_of (x : N) (c : string) : bool :=
  match classifier_python_version c with
  | Some (x', Some _) => N.eqb x' x
  | _ => false
  end.

(** The classifier declares compatibility with Python [x] or one of its
    minor versions. *)
Definition declares_major (x : N) (c : string) : bool :=
  match classifier_python_version c with
  | Some (x', _) => N.eqb x' x
  | None => false
  end.

(** The requirements of an installation that requests the extras
    [extras]: the runtime dependencies, then the dependencies of each
    requested extras group (an unknown group adds nothing). *)
Definition requirements (kw : setup_kwargs) (extras : list string)
  : list string :=
  install_requires kw
    ++ (extras ≫= λ group, default [] (extras_require kw !! group)).

(** ** Sample interpreters

    [carries_out] and [usage_error] are two packaging tools: one carries
    out the command, the other ends with a usage error when the command
    line names no command.  [no_setuptools] is the failed import on a
    Python 2 and [no_setuptools3] on a Python 3 without setuptools. *)

Definition carries_out
  : list string → gmap string string → setup_kwargs → outcome unit :=
  λ _ _ _, Returned tt.

Definition usage_error
  : list string → gmap string string → setup_kwargs → outcome unit :=
  λ argv _ _,
    match argv with
    | _ :: _ :: _ => Returned tt
    | _ => Raised (SystemExit (ExitStr "error: no commands supplied"))
    end.

Definition no_setuptools
  : outcome (list string → gmap string string → setup_kwargs → outcome unit) :=
  Raised (Exception "ImportError" "No module named setuptools").

Definition no_setuptools3
  : outcome (list string → gmap string string → setup_kwargs → outcome unit) :=
  Raised (Exception "ModuleNotFoundError" "No module named 'setuptools'").

Definition py26 : interpreter :=
  {| sys_version_info :=
       {| major := 2; minor := 6; micro := 9;
          releaselevel := "final"; serial := 0 |};
     sys_argv := ["setup.py"; "install"];
     os_environ := ∅;
     import_setuptools := Returned carries_out |}.

Definition py27 : interpreter :=
  {| sys_version_info :=
       {| major := 2; minor := 7; micro := 15;
          releaselevel := "final"; serial := 0 |};
     sys_argv := ["setup.py"; "install"];
     os_environ := {["HOME" := "/home/demo"]};
     import_setuptools := Returned carries_out |}.

Definition py27_bare : interpreter :=
  {| sys_version_info := sys_version_info py27;
     sys_argv := sys_argv py27;
     os_environ := os_environ py27;
     import_setuptools := no_setuptools |}.

Definition py30 : interpreter :=
  {| sys_version_info :=
       {| major := 3; minor := 0; micro := 1;
          releaselevel := "final"; serial := 0 |};
     sys_argv := ["setup.py"; "install"];
     os_environ := ∅;
     import_setuptools := Returned carries_out |}.

Definition py36 : interpreter :=
  {| sys_version_info :=
       {| major := 3; minor := 6; micro := 5;
          releaselevel := "final"; serial := 0 |};
     sys_argv := ["setup.py"; "develop"];
     os_environ := ∅;
     import_setuptools := Returned carries_out |}.

Definition py36_bare : interpreter :=
  {| sys_version_info := sys_version_info py36;
     sys_argv := sys_argv py36;
     os_environ := os_environ py36;
     import_setuptools := no_setuptools3 |}.

Definition py311 : interpreter :=
  {| sys_version_info :=
       {| major := 3; minor := 11; micro := 0;
          releaselevel := "candidate"; serial := 2 |};
     sys_argv := ["setup.py"];
     os_environ := {["PYTHONPATH" := "/opt/site"]};
     import_setuptools := Returned usage_error |}.

(** Reduce a statement about the keyword arguments passed to [setup] to
    one about the literal record, given the equation [Heq] that rewrites
    the run into a closed one. *)
Ltac passed_kwargs Heq :=
  rewrite Heq;
  eexists; split; [reflexivity|];
  cbn [name version description py_modules include_package_data
       install_requires extras_require classifiers entry_points].

(** ** The script and the readers on concrete inputs *)

Example run_py27_stderr :
  stderr (run_main py27) = ["Error: Please upgrade to Python3"].
Proof. reflexivity. Qed.

Example run_py27_calls : setup_calls (run_main py27) = [].
Proof. reflexivity. Qed.

Example run_py26_stderr :
  stderr (run_main py26)
  = ["AttributeError: 'tuple' object has no attribute 'major'"].
Proof. reflexivity. Qed.

Example run_py27_bare_stderr :
  stderr (run_main py27_bare)
  = ["ImportError: No module named setuptools"].
Proof. reflexivity. Qed.

Example run_py30_events : events (run_main py30) = [].
Proof. reflexivity. Qed.

Example run_py36_calls : length (setup_calls (run_main py36)) = 1%nat.
Proof. reflexivity. Qed.

Example run_py36_status : exit_status (run_main py36) = 0.
Proof. reflexivity. Qed.

Example run_py36_bare_calls : setup_calls (run_main py36_bare) = [].
Proof. reflexivity. Qed.

Example run_py311_calls : length (setup_calls (run_main py311)) = 1%nat.
Proof. reflexivity. Qed.

Example run_py311_status :
  exit_status (run_main py311) = 1 ∧ exited_early (run_main py311) = false.
Proof. split; reflexivity. Qed.

Example parse_demo :
  parse_entry_point "demo = demo:main"
  = Some {| ep_name := "demo"; ep_module := "demo"; ep_attr := "main" |}.
Proof. reflexivity. Qed.

Example parse_no_target : parse_entry_point "demo" = None.
Proof. reflexivity. Qed.

Example classifier_33 :
  classifier_python_version "Programming Language :: Python :: 3.3"
  = Some (3%N, Some 3%N).
Proof. reflexivity. Qed.

Example classifier_2_only :
  declares_major 2 "Programming Language :: Python :: 2 :: Only" = true.
Proof. reflexivity. Qed.

Example classifier_27 :
  declares_major 2 "Programming Language :: Python :: 2.7" = true.
Proof. reflexivity. Qed.

Example classifier_other :
  classifier_python_version "License :: OSI Approved :: BSD License" = None.
Proof. reflexivity. Qed.

Example contains_upgrade :
  Str.contains "upgrade" "Error: Please upgrade to Python3" = true.
Proof. reflexivity. Qed.

Example contains_not : Str.contains "upgrade" "Traceback" = false.
Proof. reflexivity. Qed.

Example requirements_py36_dev :
  (λ kw, requirements kw ["dev"]) <$> setup_calls (run_main py36)
  = [["path.py"; "pytest"]].
Proof. vm_compute. reflexivity. Qed.

Example requirements_py36_plain :
  (λ kw, requirements kw []) <$> setup_calls (run_main py36)
  = [["path.py"]].
Proof. vm_compute. reflexivity. Qed.

(** ** The monad *)

Section MonadLaws.

Context {A B : Type}.

Lemma bind_ret (a : A) (k : A → Script.t B) log :
  Script.bind (Script.ret a) k log = k a log.
Proof. reflexivity. Qed.

Lemma bind_lift_returned (a : A) (k : A → Script.t B) log :
  Script.bind (Script.lift (Returned a)) k log = k a log.
Proof. reflexivity. Qed.

(** A step that raises skips the rest of the script and keeps the log. *)
Lemma bind_lift_raised (e : exn) (k : A → Script.t B) log :
  Script.bind (Script.lift (Raised e)) k log = (log, Raised e).
Proof. reflexivity. Qed.

(** [sys.exit] skips the rest of the script. *)
Lemma bind_sys_exit (arg : exit_arg) (k : unit → Script.t B) log :
  Script.bind (sys_exit arg) k log
  = (log ++ [SysExit arg], Raised (SystemExit arg)).
Proof. reflexivity. Qed.

Lemma when_true (body : Script.t unit) : Script.when true body = body.
Proof. reflexivity. Qed.

Lemma when_false (body : Script.t unit) :
  Script.when false body = Script.ret tt.
Proof. reflexivity. Qed.

End MonadLaws.

(** The process keeps the log and the outcome of the script. *)
Lemma run_main_events_result (py : interpreter) :
  (events (run_main py), result (run_main py)) = setup_py py [].
Proof.
  unfold run_main. destruct (setup_py py []) as [log [[]|[[| |]|]]]; reflexivity.
Qed.

(** ** The attribute read *)

Lemma version_info_major_named (v : version_info) :
  has_named_fields v = true → version_info_major v = Returned (major v).
Proof. intros Hnamed. unfold version_info_major. by rewrite Hnamed. Qed.

Lemma version_info_major_plain (v : version_info) :
  has_named_fields v = false →
  ∃ message, version_info_major v = Raised (Exception "AttributeError" message).
Proof.
  intros Hplain. unfold version_info_major. rewrite Hplain.
  destruct (major v <? 2); eauto.
Qed.

(** Below major version 3 the named fields are those of Python 2.7. *)
Lemma has_named_fields_lt3 (v : version_info) :
  major v < 3 →
  has_named_fields v = true ↔ major v = 2 ∧ 7 ≤ minor v.
Proof.
  intros Hlt. unfold has_named_fields.
  destruct (Z.ltb_spec (major v) 2); [split; [done|lia]|].
  destruct (Z.eqb_spec (major v) 2); [|lia].
  destruct (Z.leb_spec 7 (minor v)); split; try done; lia.
Qed.

(** From major version 3 on only Python 3.0 has none. *)
Lemma has_named_fields_ge3 (v : version_info) :
  3 ≤ major v →
  has_named_fields v = true ↔ ¬ (major v = 3 ∧ minor v < 1).
Proof.
  intros Hge. unfold has_named_fields.
  destruct (Z.ltb_spec (major v) 2); [lia|].
  destruct (Z.eqb_spec (major v) 2); [lia|].
  destruct (Z.eqb_spec (major v) 3); [|split; [lia|done]].
  destruct (Z.leb_spec 1 (minor v)); split; try done; lia.
Qed.

(** ** The paths of the script

    The four ways a run can go: the import raises; the attribute read
    raises; the guard exits; the call to [setup] is made. *)

Section Paths.

Variable py : interpreter.

Lemma setup_py_import_raises (e : exn) :
  import_setuptools py = Raised e → setup_py py [] = ([], Raised e).
Proof. intros Himport. unfold setup_py. by rewrite Himport. Qed.

Lemma setup_py_attribute_raises setup_function :
  import_setuptools py = Returned setup_function →
  has_named_fields (sys_version_info py) = false →
  ∃ message,
    setup_py py [] = ([], Raised (Exception "AttributeError" message)).
Proof.
  intros Himport Hplain.
  destruct (version_info_major_plain _ Hplain) as (message & Hread).
  exists message. unfold setup_py.
  by rewrite Himport, bind_lift_returned, Hread.
Qed.

Lemma setup_py_lt3 setup_function :
  import_setuptools py = Returned setup_function →
  has_named_fields (sys_version_info py) = true →
  major (sys_version_info py) < 3 →
  setup_py py [] = setup_py py27 [].
Proof.
  intros Himport Hnamed Hlt. unfold setup_py.
  rewrite Himport, bind_lift_returned, (version_info_major_named _ Hnamed),
    bind_lift_returned.
  destruct (Z.ltb_spec (major (sys_version_info py)) 3) as [_|Hge]; [|lia].
  rewrite when_true, bind_sys_exit. reflexivity.
Qed.

Lemma setup_py_ge3 setup_function :
  import_setuptools py = Returned setup_function →
  has_named_fields (sys_version_info py) = true →
  3 ≤ major (sys_version_info py) →
  ∃ kw,
    events (run_main py36) = [Setup kw]
    ∧ setup_py py []
      = ([Setup kw], setup_function (sys_argv py) (os_environ py) kw).
Proof.
  intros Himport Hnamed Hge. eexists. split; [reflexivity|]. unfold setup_py.
  rewrite Himport, bind_lift_returned, (version_info_major_named _ Hnamed),
    bind_lift_returned.
  destruct (Z.ltb_spec (major (sys_version_info py)) 3) as [Hlt|_]; [lia|].
  rewrite when_false, bind_ret. reflexivity.
Qed.

(** The events of a run are none, those of [py27] or those of [py36]. *)
Lemma events_cases :
  events (run_main py) = []
  ∨ major (sys_version_info py) < 3
    ∧ events (run_main py) = events (run_main py27)
  ∨ 3 ≤ major (sys_version_info py)
    ∧ events (run_main py) = events (run_main py36).
Proof.
  pose proof (run_main_events_result py) as Heq.
  destruct (import_setuptools py) as [setup_function|e] eqn:Himport.
  - destruct (has_named_fields (sys_version_info py)) eqn:Hnamed.
    + destruct (Z.lt_ge_cases (major (sys_version_info py)) 3) as [Hlt|Hge].
      * right; left. split; [done|].
        rewrite (setup_py_lt3 _ Himport Hnamed Hlt) in Heq.
        rewrite <- (run_main_events_result py27) in Heq. congruence.
      * right; right. split; [done|].
        destruct (setup_py_ge3 _ Himport Hnamed Hge) as (kw & -> & Hrun).
        rewrite Hrun in Heq. congruence.
    + left. destruct (setup_py_attribute_raises _ Himport Hnamed)
        as (message & Hrun).
      rewrite Hrun in Heq. congruence.
  - left. rewrite (setup_py_import_raises _ Himport) in Heq. congruence.
Qed.

End Paths.

(** ** The guard

    Where the guard is evaluated, the run below major version 3 is the
    run of [py27], and from 3 on the events are those of [py36]. *)

Section Guard.

Variable py : interpreter.

Hypothesis Hguard : guard_evaluates py = true.

Lemma guard_evaluates_inv :
  ∃ setup_function,
    import_setuptools py = Returned setup_function
    ∧ has_named_fields (sys_version_info py) = true.
Proof.
  unfold guard_evaluates in Hguard.
  destruct (import_setuptools py) as [setup_function|]; [|done]. eauto.
Qed.

Lemma run_main_lt3 :
  major (sys_version_info py) < 3 → run_main py = run_main py27.
Proof.
  intros Hlt. destruct guard_evaluates_inv as (f & Himport & Hnamed).
  unfold run_main. by rewrite (setup_py_lt3 py f Himport Hnamed Hlt).
Qed.

Lemma events_ge3 :
  3 ≤ major (sys_version_info py) →
  events (run_main py) = events (run_main py36).
Proof.
  intros Hge. destruct guard_evaluates_inv as (f & Himport & Hnamed).
  destruct (setup_py_ge3 py f Himport Hnamed Hge) as (kw & -> & Hrun).
  pose proof (run_main_events_result py) as Heq. rewrite Hrun in Heq.
  congruence.
Qed.

Lemma setup_calls_ge3 :
  3 ≤ major (sys_version_info py) →
  setup_calls (run_main py) = setup_calls (run_main py36).
Proof. intros Hge. unfold setup_calls. by rewrite events_ge3. Qed.

Lemma exited_early_ge3 :
  3 ≤ major (sys_version_info py) → exited_early (run_main py) = false.
Proof. intros Hge. unfold exited_early. by rewrite events_ge3. Qed.

End Guard.

(** ** The string readers *)

Section Strings.

Implicit Types p s r sub : string.

Lemma append_nil r : "" +:+ r = r.
Proof. reflexivity. Qed.

Lemma append_cons a p r : String a p +:+ r = String a (p +:+ r).
Proof. reflexivity. Qed.

Lemma strip_prefix_Some p s r :
  Str.strip_prefix p s = Some r ↔ s = p +:+ r.
Proof.
  revert s. induction p as [|a p IH]; intros s.
  - rewrite append_nil. destruct s; simpl; split; congruence.
  - rewrite append_cons. destruct s as [|b s]; simpl; [split; discriminate|].
    destruct (Ascii.eqb_spec a b) as [->|Hne].
    + rewrite IH. split; congruence.
    + split; congruence.
Qed.

Lemma strip_prefix_None p s :
  Str.strip_prefix p s = None ↔ ∀ r, s ≠ p +:+ r.
Proof.
  split.
  - intros Hnone r Heq. apply strip_prefix_Some in Heq. congruence.
  - intros Hne. destruct (Str.strip_prefix p s) as [r|] eqn:Hsome; [|done].
    apply strip_prefix_Some in Hsome. by destruct (Hne r).
Qed.

(** [contains sub s] holds exactly when [s] is some [l], then [sub], then
    some [r]. *)
Lemma contains_true sub s :
  Str.contains sub s = true ↔ ∃ l r, s = l +:+ sub +:+ r.
Proof.
  induction s as [|a s IH]; simpl.
  - destruct (Str.strip_prefix sub "") as [r|] eqn:Hpre.
    + apply strip_prefix_Some in Hpre. split; [|done].
      intros _. by exists "", r.
    + split; [done|]. intros (l & r & Heq).
      destruct l; [|discriminate].
      rewrite strip_prefix_None in Hpre. by destruct (Hpre r).
  - destruct (Str.strip_prefix sub (String a s)) as [r|] eqn:Hpre.
    + apply strip_prefix_Some in Hpre. split; [|done].
      intros _. by exists "", r.
    + rewrite IH. split.
      * intros (l & r & ->). by exists (String a l), r.
      * intros (l & r & Heq). destruct l as [|b l].
        -- rewrite strip_prefix_None in Hpre. by destruct (Hpre r).
        -- rewrite append_cons in Heq. injection Heq as _ ->. by exists l, r.
Qed.

(** [split_once c s] cuts at the first [c]: the left part has none. *)
Lemma split_once_Some c s l r :
  Str.split_once c s = Some (l, r) →
  s = l +:+ String c r ∧ Str.split_once c l = None.
Proof.
  revert l. induction s as [|a s IH]; intros l; simpl; [discriminate|].
  destruct (Ascii.eqb_spec a c) as [->|Hne].
  - intros [= <- <-]. done.
  - destruct (Str.split_once c s) as [[l' r']|]; [|discriminate].
    intros [= <- <-]. destruct (IH l' eq_refl) as [-> Hleft].
    split; [done|]. simpl.
    destruct (Ascii.eqb_spec a c) as [->|_]; [done|]. by rewrite Hleft.
Qed.

End Strings.

(** A classifier that names a minor version of Python [x] declares that
    major version and no other. *)
Lemma names_minor_declares_major (x y : N) (c : string) :
  names_minor_of x c = true → declares_major y c = N.eqb x y.
Proof.
  unfold names_minor_of, declares_major.
  destruct (classifier_python_version c) as [[x' [m|]]|]; try discriminate.
  by intros ->%N.eqb_eq.
Qed.

(** ** Requirements of an installation *)

Lemma elem_of_requirements (kw : setup_kwargs) (extras : list string)
    (lib : string) :
  lib ∈ requirements kw extras
  ↔ lib ∈ install_requires kw
    ∨ ∃ group deps,
        group ∈ extras ∧ extras_require kw !! group = Some deps ∧ lib ∈ deps.
Proof.
  unfold requirements. rewrite elem_of_app, list_elem_of_bind.
  split; (intros [Hrun|Hextra]; [by left|right]).
  - destruct Hextra as (group & Hlib & Hgroup).
    destruct (extras_require kw !! group) as [deps|] eqn:Hlook; simpl in Hlib.
    + by exists group, deps.
    + by apply elem_of_nil in Hlib.
  - destruct Hextra as (group & deps & Hgroup & Hlook & Hlib).
    exists group. by rewrite Hlook.
Qed.


(** Requested groups other than "dev" are missing keys of the extras
    mapping of [setup.py] and contribute nothing. *)
Lemma bind_extras_without_dev (extras : list string) :
  "dev" ∉ extras →
  extras ≫= (λ group,
    default [] (({["dev" := ["pytest"]]} : gmap string (list string)) !! group))
  = [].
Proof.
  induction extras as [|group extras IH]; [done|].
  intros [Hne Hrest]%not_elem_of_cons. cbn [mbind list_bind].
  rewrite (lookup_singleton_ne "dev" group) by done.
  by rewrite IH.
Qed.

(** The calls to [setup] of a run are none or those of [py36]; they are
    the latter only from major version 3 on. *)
Lemma setup_calls_cases (py : interpreter) :
  setup_calls (run_main py) = []
  ∨ 3 ≤ major (sys_version_info py)
    ∧ setup_calls (run_main py) = setup_calls (run_main py36).
Proof.
  unfold setup_calls.
  destruct (events_cases py) as [->|[[_ ->]|[Hge ->]]]; auto.
Qed.

(** ** The claims *)

(** C1, as stated, fails: under Python 2.6, where [sys.version_info] is a
    plain tuple, the guard's attribute read raises [AttributeError]; under
    a Python 2.7 without setuptools the import raises [ImportError].
    Both have a major version below 3, neither run executes [sys.exit],
    and neither prints a line about upgrading. *)
Lemma old_interpreter_without_message :
  (major (sys_version_info py26) < 3
   ∧ result (run_main py26)
     = Raised
         (Exception "AttributeError" "'tuple' object has no attribute 'major'")
   ∧ exited_early (run_main py26) = false
   ∧ Forall (λ line, Str.contains "upgrade" line = false)
       (stderr (run_main py26)))
  ∧ (major (sys_version_info py27_bare) < 3
     ∧ result (run_main py27_bare)
       = Raised (Exception "ImportError" "No module named setuptools")
     ∧ exited_early (run_main py27_bare) = false
     ∧ Forall (λ line, Str.contains "upgrade" line = false)
         (stderr (run_main py27_bare))).
Proof.
  split; (split; [simpl; lia|]); repeat split; repeat constructor.
Qed.

(** C1, amended: under an interpreter of major version below 3 on which
    the import of [setuptools] returns and [sys.version_info] has the
    attribute [major], the script raises [SystemExit] as its first and
    only logged step: [setup] is not called, so no keyword arguments are
    built or passed.  The process prints the one line
    "Error: Please upgrade to Python3", which names the upgrade, on
    standard error and ends with status 1. *)
Theorem old_interpreter_exits_with_message (py : interpreter) :
  guard_evaluates py = true →
  major (sys_version_info py) < 3 →
  result (run_main py)
  = Raised (SystemExit (ExitStr "Error: Please upgrade to Python3"))
  ∧ events (run_main py) = [SysExit (ExitStr "Error: Please upgrade to Python3")]
  ∧ setup_calls (run_main py) = []
  ∧ stderr (run_main py) = ["Error: Please upgrade to Python3"]
  ∧ Forall (λ line, Str.contains "upgrade" line = true) (stderr (run_main py))
  ∧ exit_status (run_main py) = 1.
Proof.
  intros Hguard Hlt. rewrite (run_main_lt3 py Hguard Hlt).
  repeat split. repeat constructor.
Qed.

Lemma old_interpreter_exits_with_message_witness :
  guard_evaluates py27 = true
  ∧ major (sys_version_info py27) < 3
  ∧ result (run_main py27)
    = Raised (SystemExit (ExitStr "Error: Please upgrade to Python3"))
  ∧ events (run_main py27)
    = [SysExit (ExitStr "Error: Please upgrade to Python3")]
  ∧ setup_calls (run_main py27) = []
  ∧ stderr (run_main py27) = ["Error: Please upgrade to Python3"]
  ∧ Forall (λ line, Str.contains "upgrade" line = true)
      (stderr (run_main py27))
  ∧ exit_status (run_main py27) = 1.
Proof.
  split; [reflexivity|]. split; [simpl; lia|].
  apply (old_interpreter_exits_with_message py27); [reflexivity|simpl; lia].
Defined.

(** C2, as stated, fails: under a Python 3.6 without setuptools the import
    raises, and under Python 3.0, where [sys.version_info] is a plain
    tuple, the guard's attribute read raises.  Both have a major version
    of 3, and neither run calls [setup]. *)
Lemma new_interpreter_without_setup :
  (3 ≤ major (sys_version_info py36_bare)
   ∧ result (run_main py36_bare)
     = Raised
         (Exception "ModuleNotFoundError" "No module named 'setuptools'")
   ∧ setup_calls (run_main py36_bare) = [])
  ∧ (3 ≤ major (sys_version_info py30)
     ∧ result (run_main py30)
       = Raised
           (Exception "AttributeError"
              "'tuple' object has no attribute 'major'")
     ∧ setup_calls (run_main py30) = []).
Proof.
  split; (split; [simpl; lia|]); split; reflexivity.
Qed.

(** C2, amended: under an interpreter of major version 3 or more on which
    the import of [setuptools] returns and [sys.version_info] has the
    attribute [major], the script does not execute its [sys.exit]: its one
    and only logged step is a call to [setup], made with the command line
    and the environment of the interpreter, and the outcome of the run is
    the outcome of that call. *)
Theorem new_interpreter_calls_setup_once (py : interpreter)
    (setup_function :
       list string → gmap string string → setup_kwargs → outcome unit) :
  import_setuptools py = Returned setup_function →
  has_named_fields (sys_version_info py) = true →
  3 ≤ major (sys_version_info py) →
  exited_early (run_main py) = false
  ∧ length (setup_calls (run_main py)) = 1%nat
  ∧ ∃ kw,
      events (run_main py) = [Setup kw]
      ∧ result (run_main py)
        = setup_function (sys_argv py) (os_environ py) kw.
Proof.
  intros Himport Hnamed Hge.
  assert (Hguard : guard_evaluates py = true).
  { unfold guard_evaluates. by rewrite Himport. }
  split; [by apply exited_early_ge3|].
  split; [by rewrite setup_calls_ge3|].
  destruct (setup_py_ge3 py _ Himport Hnamed Hge) as (kw & _ & Hrun).
  pose proof (run_main_events_result py) as Heq. rewrite Hrun in Heq.
  exists kw. split; congruence.
Qed.

Lemma new_interpreter_calls_setup_once_witness :
  import_setuptools py311 = Returned usage_error
  ∧ has_named_fields (sys_version_info py311) = true
  ∧ 3 ≤ major (sys_version_info py311)
  ∧ exited_early (run_main py311) = false
  ∧ length (setup_calls (run_main py311)) = 1%nat
  ∧ ∃ kw,
      events (run_main py311) = [Setup kw]
      ∧ result (run_main py311)
        = usage_error (sys_argv py311) (os_environ py311) kw.
Proof.
  split; [reflexivity|]. split; [reflexivity|]. split; [simpl; lia|].
  apply (new_interpreter_calls_setup_once py311 usage_error);
    [reflexivity|reflexivity|simpl; lia].
Defined.

(** C3: the keyword arguments passed to [setup] list exactly one runtime
    dependency, and their extras mapping has the single key "dev", whose
    list has exactly one dependency. *)
Theorem one_runtime_one_dev_dependency (py : interpreter) :
  guard_evaluates py = true →
  3 ≤ major (sys_version_info py) →
  ∃ kw,
    setup_calls (run_main py) = [kw]
    ∧ length (install_requires kw) = 1%nat
    ∧ dom (extras_require kw) = {["dev"]}
    ∧ size (extras_require kw) = 1%nat
    ∧ ∃ deps, extras_require kw !! "dev" = Some deps ∧ length deps = 1%nat.
Proof.
  intros Hguard Hge. passed_kwargs (setup_calls_ge3 py Hguard Hge).
  split; [reflexivity|]. split; [apply dom_singleton_L|].
  split; [apply map_size_singleton|].
  eexists. split; [apply lookup_singleton_eq|reflexivity].
Qed.

Lemma one_runtime_one_dev_dependency_witness :
  guard_evaluates py36 = true
  ∧ 3 ≤ major (sys_version_info py36)
  ∧ ∃ kw,
      setup_calls (run_main py36) = [kw]
      ∧ length (install_requires kw) = 1%nat
      ∧ dom (extras_require kw) = {["dev"]}
      ∧ size (extras_require kw) = 1%nat
      ∧ ∃ deps, extras_require kw !! "dev" = Some deps ∧ length deps = 1%nat.
Proof.
  split; [reflexivity|]. split; [simpl; lia|].
  apply (one_runtime_one_dev_dependency py36); [reflexivity|simpl; lia].
Defined.

(** C4: the keyword arguments passed to [setup] register exactly one entry
    point in the group [console_scripts], and the command name it gives is
    "demo". *)
Theorem one_console_script_named_demo (py : interpreter) :
  guard_evaluates py = true →
  3 ≤ major (sys_version_info py) →
  ∃ kw spec ep,
    setup_calls (run_main py) = [kw]
    ∧ console_scripts kw = [spec]
    ∧ parse_entry_point spec = Some ep
    ∧ ep_name ep = "demo".
Proof.
  intros Hguard Hge. rewrite (setup_calls_ge3 py Hguard Hge).
  do 3 eexists. split; [reflexivity|].
  unfold console_scripts; cbn [entry_points]. rewrite lookup_singleton_eq.
  split; [reflexivity|]. split; reflexivity.
Qed.

Lemma one_console_script_named_demo_witness :
  guard_evaluates py36 = true
  ∧ 3 ≤ major (sys_version_info py36)
  ∧ ∃ kw spec ep,
      setup_calls (run_main py36) = [kw]
      ∧ console_scripts kw = [spec]
      ∧ parse_entry_point spec = Some ep
      ∧ ep_name ep = "demo".
Proof.
  split; [reflexivity|]. split; [simpl; lia|].
  apply (one_console_script_named_demo py36); [reflexivity|simpl; lia].
Defined.

(** C5: the console-script specification passed to [setup] is exactly the
    string "demo = demo:main", which maps the command "demo" to the
    callable [main] of the module [demo]. *)
Theorem demo_command_calls_demo_main (py : interpreter) :
  guard_evaluates py = true →
  3 ≤ major (sys_version_info py) →
  ∃ kw,
    setup_calls (run_main py) = [kw]
    ∧ entry_points kw !! "console_scripts" = Some ["demo = demo:main"]
    ∧ parse_entry_point <$> console_scripts kw
      = [Some {| ep_name := "demo"; ep_module := "demo"; ep_attr := "main" |}].
Proof.
  intros Hguard Hge. passed_kwargs (setup_calls_ge3 py Hguard Hge).
  unfold console_scripts; cbn [entry_points]. rewrite lookup_singleton_eq.
  split; reflexivity.
Qed.

Lemma demo_command_calls_demo_main_witness :
  guard_evaluates py36 = true
  ∧ 3 ≤ major (sys_version_info py36)
  ∧ ∃ kw,
      setup_calls (run_main py36) = [kw]
      ∧ entry_points kw !! "console_scripts" = Some ["demo = demo:main"]
      ∧ parse_entry_point <$> console_scripts kw
        = [Some {| ep_name := "demo"; ep_module := "demo";
                   ep_attr := "main" |}].
Proof.
  split; [reflexivity|]. split; [simpl; lia|].
  apply (demo_command_calls_demo_main py36); [reflexivity|simpl; lia].
Defined.

(** C6: the keyword arguments passed to [setup] give the name "demo" and
    the version "0.6.1". *)
Theorem package_identity (py : interpreter) :
  guard_evaluates py = true →
  3 ≤ major (sys_version_info py) →
  ∃ kw,
    setup_calls (run_main py) = [kw]
    ∧ name kw = "demo"
    ∧ version kw = "0.6.1".
Proof.
  intros Hguard Hge. passed_kwargs (setup_calls_ge3 py Hguard Hge). split; reflexivity.
Qed.

Lemma package_identity_witness :
  guard_evaluates py36 = true
  ∧ 3 ≤ major (sys_version_info py36)
  ∧ ∃ kw,
      setup_calls (run_main py36) = [kw]
      ∧ name kw = "demo"
      ∧ version kw = "0.6.1".
Proof.
  split; [reflexivity|]. split; [simpl; lia|].
  apply (package_identity py36); [reflexivity|simpl; lia].
Defined.

(** C7: the classifier list passed to [setup] is not empty, every
    classifier in it names a minor version of Python 3, none declares
    compatibility with Python 2, and 3 is the only major version that any
    of them declares. *)
Theorem classifiers_python3_only (py : interpreter) :
  guard_evaluates py = true →
  3 ≤ major (sys_version_info py) →
  ∃ kw,
    setup_calls (run_main py) = [kw]
    ∧ classifiers kw ≠ []
    ∧ Forall (λ c, names_minor_of 3 c = true) (classifiers kw)
    ∧ Forall (λ c, declares_major 2 c = false) (classifiers kw)
    ∧ Forall (λ c, ∀ x, declares_major x c = true → x = 3%N) (classifiers kw).
Proof.
  intros Hguard Hge. passed_kwargs (setup_calls_ge3 py Hguard Hge).
  split; [discriminate|]. split; [repeat constructor|].
  split; [repeat constructor|].
  repeat (constructor;
    [intros x Hx;
     rewrite (names_minor_declares_major 3 x) in Hx by reflexivity;
     by apply N.eqb_eq in Hx|]).
  constructor.
Qed.

Lemma classifiers_python3_only_witness :
  guard_evaluates py36 = true
  ∧ 3 ≤ major (sys_version_info py36)
  ∧ ∃ kw,
      setup_calls (run_main py36) = [kw]
      ∧ classifiers kw ≠ []
      ∧ Forall (λ c, names_minor_of 3 c = true) (classifiers kw)
      ∧ Forall (λ c, declares_major 2 c = false) (classifiers kw)
      ∧ Forall (λ c, ∀ x, declares_major x c = true → x = 3%N)
          (classifiers kw).
Proof.
  split; [reflexivity|]. split; [simpl; lia|].
  apply (classifiers_python3_only py36); [reflexivity|simpl; lia].
Defined.

(** C8: the library of the "dev" extras group is listed under the key
    "dev" of the extras mapping and under no other key, it is not in the
    runtime dependency list, and so it is among the requirements of an
    installation exactly when the extra "dev" is requested. *)
Theorem dev_library_only_on_request (py : interpreter) :
  guard_evaluates py = true →
  3 ≤ major (sys_version_info py) →
  ∃ kw lib,
    setup_calls (run_main py) = [kw]
    ∧ extras_require kw !! "dev" = Some [lib]
    ∧ (∀ group deps,
         extras_require kw !! group = Some deps → lib ∈ deps → group = "dev")
    ∧ (lib ∉ install_requires kw)
    ∧ (∀ extras, lib ∈ requirements kw extras ↔ "dev" ∈ extras).
Proof.
  intros Hguard Hge. rewrite (setup_calls_ge3 py Hguard Hge).
  do 2 eexists. split; [reflexivity|].
  split; [apply lookup_singleton_eq|].
  assert (Hrun : "pytest" ∉ ["path.py"]).
  { intros Hin. by apply list_elem_of_singleton in Hin. }
  split; [|split; [exact Hrun|]].
  - cbn [extras_require]. intros group deps Hlook _.
    by apply lookup_singleton_Some in Hlook as [<- _].
  - intros extras. rewrite elem_of_requirements.
    cbn [extras_require install_requires]. split.
    + intros [Hin|(group & deps & Hgroup & Hlook & _)]; [by apply Hrun in Hin|].
      by apply lookup_singleton_Some in Hlook as [-> _].
    + intros Hdev. right. exists "dev", ["pytest"].
      split; [done|]. split; [apply lookup_singleton_eq|].
      by apply list_elem_of_singleton.
Qed.

Lemma dev_library_only_on_request_witness :
  guard_evaluates py36 = true
  ∧ 3 ≤ major (sys_version_info py36)
  ∧ ∃ kw lib,
      setup_calls (run_main py36) = [kw]
      ∧ extras_require kw !! "dev" = Some [lib]
      ∧ (∀ group deps,
           extras_require kw !! group = Some deps → lib ∈ deps →
           group = "dev")
      ∧ (lib ∉ install_requires kw)
      ∧ (∀ extras, lib ∈ requirements kw extras ↔ "dev" ∈ extras).
Proof.
  split; [reflexivity|]. split; [simpl; lia|].
  apply (dev_library_only_on_request py36); [reflexivity|simpl; lia].
Defined.

(** C9, as stated, fails in both directions.  Under Python 2.6 the major
    version is below 3 and the script does not execute its [sys.exit]:
    the attribute read of the guard raises first.  Under a Python 3.6
    without setuptools the major version is 3 and the run still ends
    before [setup] is called: the import is another condition that ends
    it. *)
Lemma early_exit_not_iff_major_lt3 :
  (major (sys_version_info py26) < 3
   ∧ exited_early (run_main py26) = false)
  ∧ (¬ major (sys_version_info py36_bare) < 3
     ∧ setup_calls (run_main py36_bare) = []
     ∧ exit_status (run_main py36_bare) = 1
     ∧ ∃ e, result (run_main py36_bare) = Raised e).
Proof.
  split; [split; [simpl; lia|reflexivity]|].
  split; [simpl; lia|]. split; [reflexivity|]. split; [reflexivity|].
  eexists. reflexivity.
Qed.

(** C9, amended: on an interpreter on which the import of [setuptools]
    returns and [sys.version_info] has the attribute [major], the script
    executes its [sys.exit] exactly when the major version is below 3, it
    ends without a call to [setup] exactly then, whatever the rest of
    the environment and the packaging tool are; and a run that executes
    [sys.exit] has made no call to [setup]. *)
Theorem exits_early_iff_major_lt3 (py : interpreter) :
  guard_evaluates py = true →
  (exited_early (run_main py) = true ↔ major (sys_version_info py) < 3)
  ∧ (setup_calls (run_main py) = [] ↔ major (sys_version_info py) < 3)
  ∧ (exited_early (run_main py) = true → setup_calls (run_main py) = []).
Proof.
  intros Hguard.
  destruct (Z.lt_ge_cases (major (sys_version_info py)) 3) as [Hlt|Hge].
  - rewrite (run_main_lt3 py Hguard Hlt). repeat split; trivial.
  - rewrite (exited_early_ge3 py Hguard Hge), (setup_calls_ge3 py Hguard Hge).
    repeat split; first [discriminate|lia].
Qed.

Lemma exits_early_iff_major_lt3_witness :
  guard_evaluates py27 = true
  ∧ (exited_early (run_main py27) = true ↔ major (sys_version_info py27) < 3)
  ∧ (setup_calls (run_main py27) = [] ↔ major (sys_version_info py27) < 3)
  ∧ (exited_early (run_main py27) = true → setup_calls (run_main py27) = []).
Proof.
  split; [reflexivity|].
  apply (exits_early_iff_major_lt3 py27). reflexivity.
Defined.



(** ** Further properties of the script *)

(** X1: in every run, whatever the interpreter, the import and the
    packaging tool do, the script executes at most one of its two steps.
    A run that executes [sys.exit] is under a major version below 3 and
    calls [setup] not at all; a run that calls [setup] is under a major
    version of 3 or more, calls it once and does not execute
    [sys.exit]. *)
Theorem at_most_one_step (py : interpreter) :
  (length (events (run_main py)) ≤ 1)%nat
  ∧ (exited_early (run_main py) = true →
     major (sys_version_info py) < 3 ∧ setup_calls (run_main py) = [])
  ∧ (setup_calls (run_main py) ≠ [] →
     3 ≤ major (sys_version_info py)
     ∧ length (setup_calls (run_main py)) = 1%nat
     ∧ exited_early (run_main py) = false).
Proof.
  unfold exited_early, setup_calls.
  destruct (events_cases py) as [->|[[Hlt ->]|[Hge ->]]]; simpl.
  - split; [lia|]. split; [discriminate|done].
  - split; [lia|]. split; [done|done].
  - split; [lia|]. split; [discriminate|done].
Qed.

(** X2: the guard agrees with the classifiers.  On an interpreter whose
    version [x.y] is one that a classifier passed to [setup] declares, and
    on which the import of [setuptools] returns, [sys.version_info] has
    the attribute [major], the script does not exit early and it calls
    [setup] once. *)
Theorem declared_versions_reach_setup (py py' : interpreter) (c : string)
    (x y : N)
    (setup_function :
       list string → gmap string string → setup_kwargs → outcome unit) :
  c ∈ setup_calls (run_main py) ≫= classifiers →
  classifier_python_version c = Some (x, Some y) →
  major (sys_version_info py') = Z.of_N x →
  minor (sys_version_info py') = Z.of_N y →
  import_setuptools py' = Returned setup_function →
  has_named_fields (sys_version_info py') = true
  ∧ exited_early (run_main py') = false
  ∧ length (setup_calls (run_main py')) = 1%nat.
Proof.
  intros Hc Hver Hmajor Hminor Himport.
  destruct (setup_calls_cases py) as [Hnone|[_ Hsome]].
  { rewrite Hnone in Hc. by apply elem_of_nil in Hc. }
  rewrite Hsome in Hc. cbn in Hc.
  assert (Hxy : x = 3%N ∧ (1 ≤ y)%N).
  { repeat (apply elem_of_cons in Hc as [->|Hc];
      [vm_compute in Hver; injection Hver as <- <-; split; [done|lia]|]).
    by apply elem_of_nil in Hc. }
  destruct Hxy as [-> Hy].
  assert (Hnamed : has_named_fields (sys_version_info py') = true).
  { apply has_named_fields_ge3; lia. }
  assert (Hguard : guard_evaluates py' = true).
  { unfold guard_evaluates. by rewrite Himport. }
  assert (Hge : 3 ≤ major (sys_version_info py')) by lia.
  split; [done|]. split; [by apply exited_early_ge3|].
  by rewrite setup_calls_ge3.
Qed.

Lemma declared_versions_reach_setup_witness :
  "Programming Language :: Python :: 3.6"
    ∈ setup_calls (run_main py36) ≫= classifiers
  ∧ classifier_python_version "Programming Language :: Python :: 3.6"
    = Some (3%N, Some 6%N)
  ∧ major (sys_version_info py36) = Z.of_N 3
  ∧ minor (sys_version_info py36) = Z.of_N 6
  ∧ import_setuptools py36 = Returned carries_out
  ∧ has_named_fields (sys_version_info py36) = true
  ∧ exited_early (run_main py36) = false
  ∧ length (setup_calls (run_main py36)) = 1%nat.
Proof.
  assert (Hc : "Programming Language :: Python :: 3.6"
               ∈ setup_calls (run_main py36) ≫= classifiers).
  { cbn. repeat constructor. }
  split; [exact Hc|]. do 4 (split; [reflexivity|]).
  apply (declared_versions_reach_setup py36 py36
           "Programming Language :: Python :: 3.6" 3 6 carries_out);
    [exact Hc|reflexivity..].
Defined.

(** X3: for every console-script entry point passed to [setup], the module
    that it names is one of the names listed in [py_modules]. *)
Theorem console_script_module_in_py_modules (py : interpreter) :
  guard_evaluates py = true →
  3 ≤ major (sys_version_info py) →
  ∃ kw,
    setup_calls (run_main py) = [kw]
    ∧ console_scripts kw ≠ []
    ∧ Forall
        (λ spec, ∃ ep,
           parse_entry_point spec = Some ep ∧ ep_module ep ∈ py_modules kw)
        (console_scripts kw).
Proof.
  intros Hguard Hge. passed_kwargs (setup_calls_ge3 py Hguard Hge).
  unfold console_scripts; cbn [entry_points]. rewrite lookup_singleton_eq.
  split; [discriminate|]. repeat constructor.
  eexists. split; [reflexivity|]. by apply list_elem_of_singleton.
Qed.

Lemma console_script_module_in_py_modules_witness :
  guard_evaluates py36 = true
  ∧ 3 ≤ major (sys_version_info py36)
  ∧ ∃ kw,
      setup_calls (run_main py36) = [kw]
      ∧ console_scripts kw ≠ []
      ∧ Forall
          (λ spec, ∃ ep,
             parse_entry_point spec = Some ep ∧ ep_module ep ∈ py_modules kw)
          (console_scripts kw).
Proof.
  split; [reflexivity|]. split; [simpl; lia|].
  apply (console_script_module_in_py_modules py36);
    [reflexivity|simpl; lia].
Defined.

(** X5: the requirements that the keyword arguments passed to [setup]
    give an installation.  Without the extra "dev" (no extra, or only
    groups that the extras mapping does not have) they are the runtime
    dependency alone; with "dev" requested once, among any such other
    groups, they are the runtime dependency and the "dev" one. *)
Theorem requirements_of_installation (py : interpreter) :
  guard_evaluates py = true →
  3 ≤ major (sys_version_info py) →
  ∃ kw,
    setup_calls (run_main py) = [kw]
    ∧ (∀ extras, "dev" ∉ extras → requirements kw extras = ["path.py"])
    ∧ (∀ before after,
         "dev" ∉ before → "dev" ∉ after →
         requirements kw (before ++ "dev" :: after) = ["path.py"; "pytest"]).
Proof.
  intros Hguard Hge. rewrite (setup_calls_ge3 py Hguard Hge).
  eexists. split; [reflexivity|].
  unfold requirements; cbn [install_requires extras_require]. split.
  - intros extras Hdev. by rewrite bind_extras_without_dev.
  - intros before after Hbefore Hafter.
    rewrite bind_app, bind_cons, lookup_singleton_eq.
    by rewrite !bind_extras_without_dev.
Qed.

Lemma requirements_of_installation_witness :
  guard_evaluates py311 = true
  ∧ 3 ≤ major (sys_version_info py311)
  ∧ ∃ kw,
      setup_calls (run_main py311) = [kw]
      ∧ (∀ extras, "dev" ∉ extras → requirements kw extras = ["path.py"])
      ∧ (∀ before after,
           "dev" ∉ before → "dev" ∉ after →
           requirements kw (before ++ "dev" :: after)
           = ["path.py"; "pytest"]).
Proof.
  split; [reflexivity|]. split; [simpl; lia|].
  apply (requirements_of_installation py311); [reflexivity|simpl; lia].
Defined.
